(** * Micro:bit device commands: the line interpreter of microbit_V2026.01.1

    A shallow embedding of [process_command], the command interpreter that
    the board runs on every line received over the serial link or the
    Bluetooth UART, in both encodings found in the source file (the
    TypeScript one and the MakeCode-Python one), together with the
    properties the specification states about it.

    Strings are [string] (one [ascii] per character of the ASCII wire
    format); numbers are integers or NaN; the hardware is seen through the
    sequence of calls the interpreter makes to it. *)

From Stdlib Require Import String Ascii List ZArith Bool Arith Lia.
From Stdlib Require Import DecimalString.
Import ListNotations.

Local Open Scope list_scope.
Local Open Scope string_scope.

(** ** Strings as the runtime sees them *)

Module Str.

(** White space of [String.trim], restricted to ASCII: tab, line feed,
    line tab, form feed, carriage return and space. *)
Definition is_whitespace (c : ascii) : bool :=
  let n := nat_of_ascii c in
  ((9 <=? n)%nat && (n <=? 13)%nat) || (n =? 32)%nat.

(** [toLowerCase] on one character: 'A'..'Z' are moved to 'a'..'z'. *)
Definition lower_char (c : ascii) : ascii :=
  let n := nat_of_ascii c in
  if (65 <=? n)%nat && (n <=? 90)%nat then ascii_of_nat (n + 32) else c.

Fixpoint toLowerCase (s : string) : string :=
  match s with
  | EmptyString => EmptyString
  | String c r => String (lower_char c) (toLowerCase r)
  end.

Definition is_empty (s : string) : bool :=
  match s with EmptyString => true | String _ _ => false end.

Fixpoint trim_start (s : string) : string :=
  match s with
  | EmptyString => EmptyString
  | String c r => if is_whitespace c then trim_start r else s
  end.

Fixpoint trim_end (s : string) : string :=
  match s with
  | EmptyString => EmptyString
  | String c r =>
      let r' := trim_end r in
      if is_whitespace c && is_empty r' then EmptyString else String c r'
  end.

(** [s.trim()]: white space removed at both ends. *)
Definition trim (s : string) : string := trim_end (trim_start s).

(** [_py.py_string_split(s, sep)] / [s.split(sep)] for a one-character
    separator: every occurrence of the separator ends a token, empty
    tokens are kept, and the result always has at least one token. *)
Fixpoint split (sep : ascii) (s : string) : list string :=
  match s with
  | EmptyString => [EmptyString]
  | String c r =>
      if Ascii.eqb c sep then EmptyString :: split sep r
      else match split sep r with
           | tok :: toks => String c tok :: toks
           | [] => [String c EmptyString]
           end
  end.

(** Every character of the string is white space. *)
Fixpoint all_whitespace (s : string) : bool :=
  match s with
  | EmptyString => true
  | String c r => is_whitespace c && all_whitespace r
  end.

(** The string does not start with white space. *)
Definition clean_start (s : string) : bool :=
  match s with
  | EmptyString => true
  | String c _ => negb (is_whitespace c)
  end.

End Str.

(** ** Numbers *)

(** A JavaScript number as the interpreter meets it: an integer (sensor
    and pin readings, parsed arguments) or NaN (an argument that does not
    parse). *)
Inductive number : Type :=
| NaN
| Num (z : Z).

(** [("" + n)] and [str(n)]. *)
Definition number_to_string (n : number) : string :=
  match n with
  | NaN => "NaN"
  | Num z => NilZero.string_of_int (Z.to_int z)
  end.

(** ** The hardware facade *)

Inductive Pin : Type := P0 | P1 | P2.

(** Calls that return a value read from the board. *)
Inductive Input : Type :=
| temperature
| lightLevel
| acceleration_Strength
| compassHeading
| analogReadPin (p : Pin).

(** Calls that drive the board. [music_play freq dur] stands for
    [music.play(music.createSoundExpression(Sawtooth, freq, freq, 255, 255,
    dur, None, Linear), UntilDone)]. *)
Inductive Output : Type :=
| digitalWritePin (p : Pin) (v : number)
| analogWritePin (p : Pin) (v : number)
| music_play (freq dur : number)
| showString (text : string)
| plot (x y : number)
| unplot (x y : number)
| toggle (x y : number)
| clearScreen
| stopAllSounds
| startUartService
| showIcon_SmallDiamond.

(** Everything the program does to the outside world, in the order it
    does it. *)
Inductive Event : Type :=
| Sense (i : Input)
| Act (o : Output)
| uartWriteLine (msg : string)
| serialWriteLine (msg : string).

(** ** Program state and the monad of the interpreter *)

(** The one global of the program, [cmd], and the events so far. *)
Record State : Type := mkState {
  cmd : string;
  trace : list Event
}.

Definition M (A : Type) : Type := State -> A * State.

Definition ret {A} (a : A) : M A := fun st => (a, st).

Definition bind {A B} (m : M A) (k : A -> M B) : M B :=
  fun st => let (a, st') := m st in k a st'.

Declare Scope prog_scope.
Delimit Scope prog_scope with prog.
Notation "x <- m ;; k" := (bind m (fun x => k))
  (at level 61, m at next level, right associativity) : prog_scope.
Notation "m ;; k" := (bind m (fun _ => k))
  (at level 61, right associativity) : prog_scope.

Definition exec {A} (m : M A) (st : State) : State := snd (m st).

Definition emit (e : Event) : M unit :=
  fun st => (tt, mkState (cmd st) (trace st ++ [e])%list).

Definition set_cmd (c : string) : M unit :=
  fun st => (tt, mkState c (trace st)).

Definition get_cmd : M string :=
  fun st => (cmd st, st).

Definition act (o : Output) : M unit := emit (Act o).

Local Open Scope prog_scope.

(** A reading call: the board answers, and the call is recorded. *)
Definition sense (board : Input -> number) (i : Input) : M number :=
  fun st => (board i, mkState (cmd st) (trace st ++ [Sense i])%list).

(** [reply]: the message goes to the Bluetooth UART, then to the serial
    link. *)
Definition reply (msg : string) : M unit :=
  emit (uartWriteLine msg) ;;
  emit (serialWriteLine msg).

(** ** Pieces shared by the two encodings *)

(** [parts[i]]; every use is behind a length guard or a loop bound. *)
Definition part (parts : list string) (i : nat) : string :=
  nth i parts "".

(** The loop of the print command:
    [for (let i = 1; i < parts.length; i++) text += parts[i] + " "]. *)
Definition print_loop (parts : list string) : string :=
  fold_left (fun text i => text ++ (part parts i ++ " "))
            (seq 1 (length parts - 1)) "".

(** [msg_input.trim().toLowerCase()] *)
Definition normalize (msg_input : string) : string :=
  Str.toLowerCase (Str.trim msg_input).

(** The token sequence of a line. *)
Definition tokens (msg_input : string) : list string :=
  Str.split " "%char (normalize msg_input).

(** ** The interpreter, TypeScript encoding (lines 117-262) *)

Module Ts.
Section Encoding.

(** The runtime's [parseInt], which the source calls on argument tokens
    without validating them. *)
Variable parseInt : string -> number.

(** What the board returns to each reading call. *)
Variable board : Input -> number.

Definition process_command (msg_input : string) : M unit :=
  let raw_msg := normalize msg_input in
  if (String.length raw_msg =? 0)%nat then ret tt
  else
    let parts := Str.split " "%char raw_msg in
    set_cmd (part parts 0) ;;
    cmd <- get_cmd ;;
    if cmd =? "get_sensor" then
      if (length parts <? 2)%nat then ret tt
      else
        let _type := part parts 1 in
        if _type =? "temp" then
          v <- sense board temperature ;;
          reply ("" ++ ("" ++ number_to_string v))
        else if _type =? "light" then
          v <- sense board lightLevel ;;
          reply ("" ++ ("" ++ number_to_string v))
        else if _type =? "accel" then
          v <- sense board acceleration_Strength ;;
          reply ("" ++ ("" ++ number_to_string v))
        else if _type =? "compass" then
          v <- sense board compassHeading ;;
          reply ("" ++ ("" ++ number_to_string v))
        else ret tt
    else if cmd =? "get_pin" then
      if (length parts <? 2)%nat then ret tt
      else
        let p_name := part parts 1 in
        val <- (if p_name =? "p0" then sense board (analogReadPin P0)
                else if p_name =? "p1" then sense board (analogReadPin P1)
                else if p_name =? "p2" then sense board (analogReadPin P2)
                else ret (Num 0)) ;;
        reply ("PIN " ++ p_name ++ ": " ++ ("" ++ ("" ++ number_to_string val)))
    else if cmd =? "pin" then
      if (length parts <? 4)%nat then ret tt
      else
        let mode := part parts 1 in
        let p_label := part parts 2 in
        let v := parseInt (part parts 3) in
        if mode =? "d" then
          if p_label =? "p0" then act (digitalWritePin P0 v)
          else if p_label =? "p1" then act (digitalWritePin P1 v)
          else if p_label =? "p2" then act (digitalWritePin P2 v)
          else ret tt
        else if p_label =? "p0" then act (analogWritePin P0 v)
        else if p_label =? "p1" then act (analogWritePin P1 v)
        else if p_label =? "p2" then act (analogWritePin P2 v)
        else ret tt
    else if cmd =? "tone" then
      if (length parts <? 3)%nat then ret tt
      else
        let freq := parseInt (part parts 1) in
        let dur := parseInt (part parts 2) in
        act (music_play freq dur)
    else if cmd =? "print" then
      let text := print_loop parts in
      act (showString ("" ++ Str.trim text))
    else if cmd =? "plot" then
      if (length parts <? 3)%nat then ret tt
      else act (plot (parseInt (part parts 1)) (parseInt (part parts 2)))
    else if cmd =? "unplot" then
      if (length parts <? 3)%nat then ret tt
      else act (unplot (parseInt (part parts 1)) (parseInt (part parts 2)))
    else if cmd =? "toggle" then
      if (length parts <? 3)%nat then ret tt
      else act (toggle (parseInt (part parts 1)) (parseInt (part parts 2)))
    else if cmd =? "clear" then
      act clearScreen
    else if cmd =? "reset" then
      act clearScreen ;;
      act (analogWritePin P0 (Num 0)) ;;
      act (analogWritePin P1 (Num 0)) ;;
      act (analogWritePin P2 (Num 0)) ;;
      act stopAllSounds ;;
      reply "RESET_OK"
    else if cmd =? "ping" then
      reply "pong"
    else if cmd =? "version" then
      reply "microbit_V2026.01.1"
    else ret tt.

(** The two listeners hand the line they received to the interpreter. *)
Definition on_uart_data_received (line : string) : M unit :=
  process_command line.

Definition on_data_received (line : string) : M unit :=
  process_command line.

(** The state after one line has been processed. *)
Definition run (line : string) (st : State) : State :=
  exec (process_command line) st.

(** Top level of the program: [let cmd = ""], then the start-up calls. *)
Definition main : M unit :=
  set_cmd "" ;;
  act startUartService ;;
  act showIcon_SmallDiamond.

End Encoding.
End Ts.

(** ** The interpreter, MakeCode-Python encoding (lines 1-115)

    [int] is the runtime's [parseInt], [str(n)] is [number_to_string]. *)

Module Py.
Section Encoding.

Variable parseInt : string -> number.
Variable board : Input -> number.

Definition process_command (msg_input : string) : M unit :=
  let raw_msg := normalize msg_input in
  if (String.length raw_msg =? 0)%nat then ret tt
  else
    let parts := Str.split " "%char raw_msg in
    set_cmd (part parts 0) ;;
    cmd <- get_cmd ;;
    if cmd =? "get_sensor" then
      if (length parts <? 2)%nat then ret tt
      else
        let _type := part parts 1 in
        if _type =? "temp" then
          v <- sense board temperature ;;
          reply ("" ++ number_to_string v)
        else if _type =? "light" then
          v <- sense board lightLevel ;;
          reply ("" ++ number_to_string v)
        else if _type =? "accel" then
          v <- sense board acceleration_Strength ;;
          reply ("" ++ number_to_string v)
        else if _type =? "compass" then
          v <- sense board compassHeading ;;
          reply ("" ++ number_to_string v)
        else ret tt
    else if cmd =? "get_pin" then
      if (length parts <? 2)%nat then ret tt
      else
        let p_name := part parts 1 in
        val <- (if p_name =? "p0" then sense board (analogReadPin P0)
                else if p_name =? "p1" then sense board (analogReadPin P1)
                else if p_name =? "p2" then sense board (analogReadPin P2)
                else ret (Num 0)) ;;
        reply ("PIN " ++ p_name ++ ": " ++ ("" ++ number_to_string val))
    else if cmd =? "pin" then
      if (length parts <? 4)%nat then ret tt
      else
        let mode := part parts 1 in
        let p_label := part parts 2 in
        let v := parseInt (part parts 3) in
        if mode =? "d" then
          if p_label =? "p0" then act (digitalWritePin P0 v)
          else if p_label =? "p1" then act (digitalWritePin P1 v)
          else if p_label =? "p2" then act (digitalWritePin P2 v)
          else ret tt
        else if p_label =? "p0" then act (analogWritePin P0 v)
        else if p_label =? "p1" then act (analogWritePin P1 v)
        else if p_label =? "p2" then act (analogWritePin P2 v)
        else ret tt
    else if cmd =? "tone" then
      if (length parts <? 3)%nat then ret tt
      else
        let freq := parseInt (part parts 1) in
        let dur := parseInt (part parts 2) in
        act (music_play freq dur)
    else if cmd =? "print" then
      let text := print_loop parts in
      act (showString ("" ++ Str.trim text))
    else if cmd =? "plot" then
      if (length parts <? 3)%nat then ret tt
      else act (plot (parseInt (part parts 1)) (parseInt (part parts 2)))
    else if cmd =? "unplot" then
      if (length parts <? 3)%nat then ret tt
      else act (unplot (parseInt (part parts 1)) (parseInt (part parts 2)))
    else if cmd =? "toggle" then
      if (length parts <? 3)%nat then ret tt
      else act (toggle (parseInt (part parts 1)) (parseInt (part parts 2)))
    else if cmd =? "clear" then
      act clearScreen
    else if cmd =? "reset" then
      act clearScreen ;;
      act (analogWritePin P0 (Num 0)) ;;
      act (analogWritePin P1 (Num 0)) ;;
      act (analogWritePin P2 (Num 0)) ;;
      act stopAllSounds ;;
      reply "RESET_OK"
    else if cmd =? "ping" then
      reply "pong"
    else ret tt.

Definition on_uart_data_received (line : string) : M unit :=
  process_command line.

Definition on_data_received (line : string) : M unit :=
  process_command line.

(** The state after one line has been processed. *)
Definition run (line : string) (st : State) : State :=
  exec (process_command line) st.

(** Top level: [cmd = ""], then the start-up calls. *)
Definition main : M unit :=
  set_cmd "" ;;
  act startUartService ;;
  act showIcon_SmallDiamond.

End Encoding.
End Py.

(** ** The dispatch table of the specification *)

(** The registered command names. *)
Definition registered : list string :=
  ["get_sensor"; "get_pin"; "pin"; "tone"; "print"; "plot"; "unplot";
   "toggle"; "clear"; "reset"; "ping"; "version"].

(** The documented minimum token count of the commands that have an
    arity guard. *)
Definition min_tokens (name : string) : option nat :=
  if name =? "get_sensor" then Some 2%nat
  else if name =? "get_pin" then Some 2%nat
  else if name =? "tone" then Some 3%nat
  else if name =? "plot" then Some 3%nat
  else if name =? "unplot" then Some 3%nat
  else if name =? "toggle" then Some 3%nat
  else if name =? "pin" then Some 4%nat
  else None.

(** The first token of a line, when the normalized line is not empty. *)
Definition first_token (msg_input : string) : option string :=
  if (String.length (normalize msg_input) =? 0)%nat then None
  else Some (part (tokens msg_input) 0).

(** The pin an argument token names, if any. *)
Definition pin_of_name (x : string) : option Pin :=
  if x =? "p0" then Some P0
  else if x =? "p1" then Some P1
  else if x =? "p2" then Some P2
  else None.

(** Each argument token followed by one space, concatenated. *)
Fixpoint spaced (args : list string) : string :=
  match args with
  | [] => ""
  | a :: rest => a ++ " " ++ spaced rest
  end.

(** A reply as it appears in the trace: once per transport. *)
Definition replied (msg : string) : list Event :=
  [uartWriteLine msg; serialWriteLine msg].

(** ** Vocabulary of the further properties *)

(** The lines written to the Bluetooth UART, in order. *)
Fixpoint uart_lines (t : list Event) : list string :=
  match t with
  | [] => []
  | uartWriteLine m :: t' => m :: uart_lines t'
  | _ :: t' => uart_lines t'
  end.

(** The lines written to the serial link, in order. *)
Fixpoint serial_lines (t : list Event) : list string :=
  match t with
  | [] => []
  | serialWriteLine m :: t' => m :: serial_lines t'
  | _ :: t' => serial_lines t'
  end.

(** The reading calls of a trace, in order. *)
Fixpoint readings_of (t : list Event) : list Input :=
  match t with
  | [] => []
  | Sense i :: t' => i :: readings_of t'
  | _ :: t' => readings_of t'
  end.

(** The sensor a [get_sensor] argument names, if any. *)
Definition sensor_of_name (t : string) : option Input :=
  if t =? "temp" then Some temperature
  else if t =? "light" then Some lightLevel
  else if t =? "accel" then Some acceleration_Strength
  else if t =? "compass" then Some compassHeading
  else None.

(** The LED call a command name stands for, if any. *)
Definition led_call (name : string) : option (number -> number -> Output) :=
  if name =? "plot" then Some plot
  else if name =? "unplot" then Some unplot
  else if name =? "toggle" then Some toggle
  else None.

(** The commands that have no reply in any branch. *)
Definition unanswered : list string :=
  ["pin"; "tone"; "print"; "plot"; "unplot"; "toggle"; "clear"].

(** What one line makes the board do, from a fresh trace. *)
Definition response (parseInt : string -> number) (board : Input -> number)
    (line : string) : list Event :=
  trace (Ts.run parseInt board line (mkState "" [])).

(** The string without its first [n] characters. *)
Fixpoint skip (n : nat) (s : string) : string :=
  match n, s with
  | O, _ => s
  | S n', String _ r => skip n' r
  | S _, EmptyString => EmptyString
  end.

(** The string holds no space. *)
Fixpoint no_space (s : string) : bool :=
  match s with
  | EmptyString => true
  | String c r => negb (Ascii.eqb c " "%char) && no_space r
  end.

Inductive Transport : Type := Bluetooth | Serial.

(** One line received: the listener that fires, the text, and what the
    board would answer to a reading call at that moment. *)
Record Receipt : Type := mkReceipt {
  via : Transport;
  text : string;
  readings : Input -> number
}.

Definition deliver (parseInt : string -> number) (r : Receipt) : M unit :=
  match via r with
  | Bluetooth => Ts.on_uart_data_received parseInt (readings r) (text r)
  | Serial => Ts.on_data_received parseInt (readings r) (text r)
  end.

Fixpoint deliver_all (parseInt : string -> number) (rs : list Receipt) : M unit :=
  match rs with
  | [] => ret tt
  | r :: rs' => deliver parseInt r ;; deliver_all parseInt rs'
  end.

(** A whole run: the top level, then one listener call per line received. *)
Definition session (parseInt : string -> number) (rs : list Receipt) : M unit :=
  Ts.main ;; deliver_all parseInt rs.

(** The command name left in [cmd] by the lines received, oldest first,
    starting from [c]. *)
Fixpoint last_command (c : string) (lines : list string) : string :=
  match lines with
  | [] => c
  | l :: rest =>
      last_command (match first_token l with Some name => name | None => c end)
                   rest
  end.

(** ** A sample runtime, for concrete runs *)

Module Sample.

Definition digit_of (c : ascii) : option Z :=
  let n := nat_of_ascii c in
  if (48 <=? n)%nat && (n <=? 57)%nat then Some (Z.of_nat (n - 48)) else None.

Fixpoint digits (s : string) (acc : option Z) : option Z :=
  match s with
  | EmptyString => acc
  | String c r =>
      match digit_of c with
      | Some d => digits r (Some (10 * match acc with Some a => a | None => 0 end + d)%Z)
      | None => acc
      end
  end.

(** Decimal [parseInt]: an optional sign, then the longest run of
    digits; NaN when there is no digit. *)
Definition parseInt (s : string) : number :=
  let (sign, body) :=
    match s with
    | String "-"%char r => ((-1)%Z, r)
    | String "+"%char r => (1%Z, r)
    | _ => (1%Z, s)
    end in
  match digits body None with
  | Some v => Num (sign * v)
  | None => NaN
  end.

(** A board at 21 degrees, with 512 on P0, 7 on P1 and 1023 on P2. *)
Definition board (i : Input) : number :=
  match i with
  | temperature => Num 21
  | lightLevel => Num 128
  | acceleration_Strength => Num 1024
  | compassHeading => Num 90
  | analogReadPin P0 => Num 512
  | analogReadPin P1 => Num 7
  | analogReadPin P2 => Num 1023
  end.

Definition boot : State := mkState "" [].

Definition run_ts (line : string) : State :=
  Ts.run parseInt board line boot.

Definition run_py (line : string) : State :=
  Py.run parseInt board line boot.

End Sample.

(** * Properties *)

(** ** Normalisation *)

Module StrFacts.
Import Str.

Lemma lower_char_whitespace c : is_whitespace (lower_char c) = is_whitespace c.
Proof. destruct c as [[] [] [] [] [] [] [] []]; reflexivity. Qed.

Lemma lower_char_idem c : lower_char (lower_char c) = lower_char c.
Proof. destruct c as [[] [] [] [] [] [] [] []]; reflexivity. Qed.

Lemma toLowerCase_idem s : toLowerCase (toLowerCase s) = toLowerCase s.
Proof.
  induction s as [|c r IH]; simpl; [reflexivity|].
  now rewrite lower_char_idem, IH.
Qed.

Lemma toLowerCase_length s : String.length (toLowerCase s) = String.length s.
Proof. induction s as [|c r IH]; simpl; congruence. Qed.

Lemma is_empty_toLowerCase s : is_empty (toLowerCase s) = is_empty s.
Proof. destruct s; reflexivity. Qed.

Lemma toLowerCase_trim_start s :
  toLowerCase (trim_start s) = trim_start (toLowerCase s).
Proof.
  induction s as [|c r IH]; simpl; [reflexivity|].
  rewrite lower_char_whitespace.
  destruct (is_whitespace c); [exact IH | reflexivity].
Qed.

Lemma toLowerCase_trim_end s :
  toLowerCase (trim_end s) = trim_end (toLowerCase s).
Proof.
  induction s as [|c r IH]; simpl; [reflexivity|].
  rewrite lower_char_whitespace, <- IH, is_empty_toLowerCase.
  destruct (is_whitespace c && is_empty (trim_end r)); reflexivity.
Qed.

Lemma toLowerCase_trim s : toLowerCase (trim s) = trim (toLowerCase s).
Proof.
  unfold trim. now rewrite toLowerCase_trim_end, toLowerCase_trim_start.
Qed.

Lemma trim_start_clean s : clean_start (trim_start s) = true.
Proof.
  induction s as [|c r IH]; simpl; [reflexivity|].
  destruct (is_whitespace c) eqn:E; [exact IH | simpl; now rewrite E].
Qed.

Lemma trim_start_fixed s : clean_start s = true -> trim_start s = s.
Proof.
  destruct s as [|c r]; simpl; [reflexivity|].
  destruct (is_whitespace c); [discriminate | reflexivity].
Qed.

Lemma trim_end_clean s : clean_start s = true -> clean_start (trim_end s) = true.
Proof.
  destruct s as [|c r]; simpl; [reflexivity|].
  destruct (is_whitespace c) eqn:E; [discriminate | intros _; simpl; now rewrite E].
Qed.

Lemma trim_end_idem s : trim_end (trim_end s) = trim_end s.
Proof.
  induction s as [|c r IH]; simpl; [reflexivity|].
  destruct (is_whitespace c && is_empty (trim_end r)) eqn:E; [reflexivity|].
  simpl. rewrite IH, E. reflexivity.
Qed.

Lemma trim_idem s : trim (trim s) = trim s.
Proof.
  unfold trim.
  rewrite (trim_start_fixed (trim_end (trim_start s))).
  - apply trim_end_idem.
  - apply trim_end_clean, trim_start_clean.
Qed.

Lemma trim_start_all_whitespace s :
  all_whitespace s = true -> trim_start s = "".
Proof.
  induction s as [|c r IH]; simpl; [reflexivity|].
  destruct (is_whitespace c); [exact IH | discriminate].
Qed.

Lemma trim_all_whitespace s : all_whitespace s = true -> trim s = "".
Proof. intros H. unfold trim. now rewrite trim_start_all_whitespace. Qed.

(** Conversely, a line that trims to nothing was white space only. *)
Lemma trim_end_empty s : trim_end s = "" -> all_whitespace s = true.
Proof.
  induction s as [|c r IH]; simpl; [reflexivity|].
  destruct (is_whitespace c); simpl; [|discriminate].
  destruct (trim_end r); simpl; [intros _; now apply IH | discriminate].
Qed.

Lemma trim_empty_all_whitespace s : trim s = "" -> all_whitespace s = true.
Proof.
  unfold trim. intros H. apply trim_end_empty in H.
  induction s as [|c r IH]; simpl in *; [reflexivity|].
  destruct (is_whitespace c) eqn:E; simpl in *; [now apply IH|].
  now rewrite E in H.
Qed.

(** A split always yields a first token, so [parts[0]] is defined. *)
Lemma split_not_nil sep s : split sep s <> [].
Proof.
  destruct s as [|c r]; simpl; [discriminate|].
  destruct (Ascii.eqb c sep); [discriminate|].
  destruct (split sep r); discriminate.
Qed.

End StrFacts.

Lemma normalize_idem s : normalize (normalize s) = normalize s.
Proof.
  unfold normalize.
  rewrite <- StrFacts.toLowerCase_trim, StrFacts.trim_idem.
  apply StrFacts.toLowerCase_idem.
Qed.

(** ** Tokens *)

Lemma first_token_some msg name :
  first_token msg = Some name ->
  (String.length (normalize msg) =? 0)%nat = false /\
  part (Str.split " "%char (normalize msg)) 0 = name.
Proof.
  unfold first_token, tokens.
  destruct (String.length (normalize msg) =? 0)%nat; [discriminate|].
  intros H; injection H as H. split; [reflexivity | exact H].
Qed.

Lemma tokens_head msg a rest :
  tokens msg = a :: rest -> a <> "" -> first_token msg = Some a.
Proof.
  intros H Ha. unfold first_token. rewrite H.
  destruct (normalize msg) as [|c r] eqn:E.
  - unfold tokens in H. rewrite E in H. simpl in H. congruence.
  - reflexivity.
Qed.

Lemma first_token_trim msg :
  Str.trim msg <> "" -> first_token msg = Some (part (tokens msg) 0).
Proof.
  intros H. unfold first_token, normalize.
  rewrite StrFacts.toLowerCase_length.
  destruct (Str.trim msg); [congruence | reflexivity].
Qed.

Lemma first_token_none msg : Str.trim msg = "" -> first_token msg = None.
Proof. intros H. unfold first_token, normalize. now rewrite H. Qed.

(** ** The print loop *)

Lemma append_empty_r s : s ++ "" = s.
Proof. induction s as [|c r IH]; simpl; congruence. Qed.

Lemma append_assoc_string a b c : (a ++ b) ++ c = a ++ (b ++ c).
Proof. induction a as [|x r IH]; simpl; congruence. Qed.

Lemma print_loop_from pre args acc :
  fold_left (fun text i => text ++ (part (pre ++ args)%list i ++ " "))
            (seq (length pre) (length args)) acc
  = acc ++ spaced args.
Proof.
  revert pre acc. induction args as [|a args IH]; intros pre acc; simpl.
  - now rewrite append_empty_r.
  - replace (part (pre ++ a :: args)%list (length pre)) with a
      by (unfold part; now rewrite nth_middle).
    replace (pre ++ a :: args)%list with ((pre ++ [a]) ++ args)%list
      by (rewrite <- app_assoc; reflexivity).
    replace (S (length pre)) with (length (pre ++ [a])%list)
      by (rewrite length_app; simpl; lia).
    rewrite IH. rewrite !append_assoc_string. reflexivity.
Qed.

Lemma print_loop_spaced name args : print_loop (name :: args) = spaced args.
Proof.
  unfold print_loop.
  replace (length (name :: args) - 1)%nat with (length args)
    by (simpl; lia).
  apply (print_loop_from [name] args "").
Qed.

(** ** The interpreter *)

(** Enters [process_command] on a line whose first token is known. *)
Ltac enter_dispatch H :=
  let Hne := fresh "Hne" in
  let Hc := fresh "Hc" in
  destruct (first_token_some _ _ H) as [Hne Hc];
  unfold Ts.run, Ts.process_command, exec;
  rewrite Hne;
  unfold bind, set_cmd, get_cmd;
  cbn [fst snd cmd trace];
  rewrite Hc.

Ltac split_tests :=
  repeat match goal with
         | |- context [if ?b then _ else _] => destruct b
         end.

Section Properties.

Variable parseInt : string -> number.
Variable board : Input -> number.

Lemma process_command_normalize s :
  Ts.process_command parseInt board (normalize s)
  = Ts.process_command parseInt board s.
Proof.
  unfold Ts.process_command. rewrite normalize_idem. reflexivity.
Qed.

Lemma run_empty msg st :
  first_token msg = None -> Ts.run parseInt board msg st = st.
Proof.
  unfold first_token. intros H. unfold Ts.run, Ts.process_command, exec.
  destruct (String.length (normalize msg) =? 0)%nat; [reflexivity | discriminate].
Qed.

(** C1: a line whose first token is not a registered command name
    leaves the trace as it was: no reply on either transport and no
    hardware call; only [cmd] records the token. *)
Theorem unknown_command_silent msg st name :
  first_token msg = Some name ->
  ~ In name registered ->
  Ts.run parseInt board msg st = mkState name (trace st).
Proof.
  intros H Hn. enter_dispatch H.
  repeat match goal with
         | |- context [(name =? ?lit)%string] =>
             destruct (String.eqb_spec name lit) as [E|_];
             [exfalso; apply Hn; rewrite E; simpl; tauto|]
         end.
  reflexivity.
Qed.

(** C2: a recognized command given fewer tokens than its documented
    minimum returns silently: the trace is unchanged. *)
Theorem under_arity_silent msg st name n :
  first_token msg = Some name ->
  min_tokens name = Some n ->
  length (tokens msg) < n ->
  Ts.run parseInt board msg st = mkState name (trace st).
Proof.
  intros H Hmin Hlen. enter_dispatch H.
  unfold tokens in Hlen. unfold min_tokens in Hmin.
  apply Nat.ltb_lt in Hlen.
  repeat match type of Hmin with
         | context [(name =? ?lit)%string] =>
             destruct (String.eqb_spec name lit) as [E|_]; simpl in Hmin;
             [ injection Hmin as <-; rewrite E;
               cbn -[Nat.ltb]; rewrite Hlen; reflexivity |]
         end.
  discriminate.
Qed.

(** C3: [ping] is answered by exactly [pong] and [version] by exactly
    the version string, on both transports, whatever tokens follow. *)
Theorem ping_version_reply msg st :
  (first_token msg = Some "ping" ->
   trace (Ts.run parseInt board msg st) = (trace st ++ replied "pong")%list) /\
  (first_token msg = Some "version" ->
   trace (Ts.run parseInt board msg st) = (trace st ++ replied "microbit_V2026.01.1")%list).
Proof.
  split; intros H; enter_dispatch H; cbn;
    rewrite <- app_assoc; reflexivity.
Qed.

(** C4: for a line [get_pin x], the reply is [PIN x: v] with [v] the
    analog reading of the pin when [x] is p0, p1 or p2 (the pin is read
    once, before the reply), and [PIN x: 0] for any other token, without
    any reading. [x] is the argument token of the normalized line. *)
Theorem get_pin_reply msg st x rest :
  tokens msg = "get_pin" :: x :: rest ->
  trace (Ts.run parseInt board msg st) =
    (trace st ++
     match pin_of_name x with
     | Some p =>
         Sense (analogReadPin p)
         :: replied ("PIN " ++ x ++ ": " ++ number_to_string (board (analogReadPin p)))
     | None => replied ("PIN " ++ x ++ ": 0")
     end)%list.
Proof.
  intros Ht.
  assert (H : first_token msg = Some "get_pin")
    by (apply (tokens_head _ _ _ Ht); discriminate).
  enter_dispatch H. unfold tokens in Ht. rewrite Ht.
  unfold pin_of_name, sense, reply, emit, bind. cbn.
  destruct (x =? "p0"); [|destruct (x =? "p1"); [|destruct (x =? "p2")]];
    cbn; rewrite <- !app_assoc; reflexivity.
Qed.

(** C5: [reset] clears the display, writes 0 to the analog outputs P0,
    P1 and P2, stops all sounds, and only then sends the reply, which is
    exactly [RESET_OK]. *)
Theorem reset_actions_then_reply msg st :
  first_token msg = Some "reset" ->
  trace (Ts.run parseInt board msg st) =
    (trace st ++
     [Act clearScreen;
      Act (analogWritePin P0 (Num 0));
      Act (analogWritePin P1 (Num 0));
      Act (analogWritePin P2 (Num 0));
      Act stopAllSounds] ++ replied "RESET_OK")%list.
Proof.
  intros H. enter_dispatch H. cbn.
  rewrite <- !app_assoc. reflexivity.
Qed.

(** C6: a raw line and its lower-cased, trimmed form are processed
    alike: same events, same final state; so ["  PING  "] is handled as
    ["ping"]. *)
Theorem normalized_line_same s st :
  Ts.run parseInt board s st = Ts.run parseInt board (normalize s) st /\
  Ts.run parseInt board "  PING  " st = Ts.run parseInt board "ping" st.
Proof.
  split.
  - unfold Ts.run. now rewrite process_command_normalize.
  - reflexivity.
Qed.

(** C7: a line of white space only, or an empty one, changes nothing:
    no reply, no hardware call, and [cmd] keeps its value. *)
Theorem blank_line_no_effect s st :
  Str.all_whitespace s = true ->
  Ts.run parseInt board s st = st.
Proof.
  intros H. apply run_empty, first_token_none.
  now apply StrFacts.trim_all_whitespace.
Qed.

(** C8: [print a1 .. an] shows the argument tokens, each followed by one
    space, concatenated and trimmed; [print hello world] shows
    [hello world]. *)
Theorem print_shows_joined_args :
  (forall msg st args,
      tokens msg = "print" :: args ->
      trace (Ts.run parseInt board msg st)
      = (trace st ++ [Act (showString (Str.trim (spaced args)))])%list) /\
  (forall st,
      trace (Ts.run parseInt board "print hello world" st)
      = (trace st ++ [Act (showString "hello world")])%list).
Proof.
  split.
  - intros msg st args Ht.
    assert (H : first_token msg = Some "print")
      by (apply (tokens_head _ _ _ Ht); discriminate).
    enter_dispatch H. unfold tokens in Ht. rewrite Ht.
    rewrite print_loop_spaced. reflexivity.
  - intros st. reflexivity.
Qed.


(** C10: on a line whose trimmed form is not empty, [cmd] becomes the
    first token of the normalized line, registered or not; on a line
    whose trimmed form is empty, [cmd] keeps its value; and the value
    [cmd] held before is read by no part of the program: the events of
    the interpreter, of the two listeners and of the top level are the
    same whatever it was. *)
Theorem cmd_written_never_read msg st :
  (Str.trim msg <> "" ->
   cmd (Ts.run parseInt board msg st) = part (tokens msg) 0) /\
  (Str.trim msg = "" ->
   cmd (Ts.run parseInt board msg st) = cmd st) /\
  (forall c1 c2 t,
      trace (Ts.run parseInt board msg (mkState c1 t))
      = trace (Ts.run parseInt board msg (mkState c2 t)) /\
      trace (exec (Ts.on_uart_data_received parseInt board msg) (mkState c1 t))
      = trace (exec (Ts.on_uart_data_received parseInt board msg) (mkState c2 t)) /\
      trace (exec (Ts.on_data_received parseInt board msg) (mkState c1 t))
      = trace (exec (Ts.on_data_received parseInt board msg) (mkState c2 t)) /\
      trace (exec Ts.main (mkState c1 t)) = trace (exec Ts.main (mkState c2 t))).
Proof.
  assert (Hni : forall c1 c2 t,
             trace (Ts.run parseInt board msg (mkState c1 t))
             = trace (Ts.run parseInt board msg (mkState c2 t))).
  { intros c1 c2 t. unfold Ts.run, Ts.process_command, exec.
    destruct (String.length (normalize msg) =? 0)%nat; [reflexivity|].
    unfold bind, set_cmd, get_cmd. cbn [fst snd cmd trace]. reflexivity. }
  split; [|split].
  - intros H. apply first_token_trim in H.
    unfold Ts.run, Ts.process_command, exec.
    destruct (first_token_some _ _ H) as [Hne _]. rewrite Hne.
    unfold bind, set_cmd, get_cmd, tokens. cbn [fst snd cmd trace].
    split_tests; reflexivity.
  - intros H. now rewrite (run_empty msg st (first_token_none msg H)).
  - intros c1 c2 t. repeat split; try apply Hni. 
Qed.

(** The two encodings run the same code on every line whose first token
    is not [version]. *)
Lemma encodings_agree_off_version msg st :
  first_token msg <> Some "version" ->
  Py.run parseInt board msg st = Ts.run parseInt board msg st.
Proof.
  intros H. unfold Py.run, Ts.run, Py.process_command, Ts.process_command, exec.
  unfold first_token, tokens in H.
  destruct (String.length (normalize msg) =? 0)%nat; [reflexivity|].
  unfold bind, set_cmd, get_cmd. cbn [fst snd cmd trace].
  destruct (String.eqb_spec (part (Str.split " " (normalize msg)) 0) "version")
    as [E|_]; [rewrite E in H; congruence|].
  split_tests; reflexivity.
Qed.

Lemma encodings_same_startup st :
  exec Py.main st = exec Ts.main st.
Proof. reflexivity. Qed.

(** C9: the two encodings are not duplicates on [version]: the
    TypeScript encoding answers with the version string, the Python
    encoding has no such command and stays silent. *)
Theorem encodings_differ_on_version st :
  trace (Ts.run parseInt board "version" st)
  = (trace st ++ replied "microbit_V2026.01.1")%list /\
  trace (Py.run parseInt board "version" st) = trace st /\
  trace (Py.run parseInt board "version" st)
  <> trace (Ts.run parseInt board "version" st).
Proof.
  assert (Hts : trace (Ts.run parseInt board "version" st)
                = (trace st ++ replied "microbit_V2026.01.1")%list).
  { assert (H : first_token "version" = Some "version") by reflexivity.
    enter_dispatch H. cbn. rewrite <- app_assoc. reflexivity. }
  assert (Hpy : trace (Py.run parseInt board "version" st) = trace st)
    by reflexivity.
  split; [exact Hts | split; [exact Hpy |]].
  rewrite Hts, Hpy. intros E.
  apply (f_equal (@length Event)) in E.
  rewrite length_app in E. simpl in E. lia.
Qed.

End Properties.

(** ** Concrete runs *)

Lemma unknown_command_silent_witness :
  first_token "Hello there" = Some "hello" /\
  ~ In "hello" registered /\
  Sample.run_ts "Hello there" = mkState "hello" [].
Proof.
  assert (H1 : first_token "Hello there" = Some "hello") by reflexivity.
  assert (H2 : ~ In "hello" registered)
    by (simpl; intuition discriminate).
  split; [exact H1 | split; [exact H2 |]].
  exact (unknown_command_silent Sample.parseInt Sample.board _ _ _ H1 H2).
Defined.

Lemma under_arity_silent_witness :
  first_token "pin d p0" = Some "pin" /\
  min_tokens "pin" = Some 4%nat /\
  length (tokens "pin d p0") < 4 /\
  Sample.run_ts "pin d p0" = mkState "pin" [].
Proof.
  assert (H1 : first_token "pin d p0" = Some "pin") by reflexivity.
  assert (H2 : min_tokens "pin" = Some 4%nat) by reflexivity.
  assert (H3 : length (tokens "pin d p0") < 4) by (vm_compute; lia).
  split; [exact H1 | split; [exact H2 | split; [exact H3 |]]].
  exact (under_arity_silent Sample.parseInt Sample.board _ _ _ _ H1 H2 H3).
Defined.

Lemma ping_version_reply_witness :
  (first_token "ping 1 2 3" = Some "ping" /\
   trace (Sample.run_ts "ping 1 2 3") = replied "pong") /\
  (first_token " Version now" = Some "version" /\
   trace (Sample.run_ts " Version now") = replied "microbit_V2026.01.1").
Proof.
  assert (H1 : first_token "ping 1 2 3" = Some "ping") by reflexivity.
  assert (H2 : first_token " Version now" = Some "version") by reflexivity.
  split; (split; [assumption|]).
  - exact (proj1 (ping_version_reply Sample.parseInt Sample.board _ Sample.boot) H1).
  - exact (proj2 (ping_version_reply Sample.parseInt Sample.board _ Sample.boot) H2).
Defined.

Lemma get_pin_reply_witness :
  (tokens "get_pin p1" = ["get_pin"; "p1"] /\
   trace (Sample.run_ts "get_pin p1")
   = Sense (analogReadPin P1) :: replied "PIN p1: 7") /\
  (tokens "get_pin p7" = ["get_pin"; "p7"] /\
   trace (Sample.run_ts "get_pin p7") = replied "PIN p7: 0").
Proof.
  assert (H1 : tokens "get_pin p1" = ["get_pin"; "p1"]) by reflexivity.
  assert (H2 : tokens "get_pin p7" = ["get_pin"; "p7"]) by reflexivity.
  split; (split; [assumption|]).
  - exact (get_pin_reply Sample.parseInt Sample.board _ Sample.boot _ _ H1).
  - exact (get_pin_reply Sample.parseInt Sample.board _ Sample.boot _ _ H2).
Defined.

Lemma reset_actions_then_reply_witness :
  first_token "reset now" = Some "reset" /\
  trace (Sample.run_ts "reset now")
  = [Act clearScreen;
     Act (analogWritePin P0 (Num 0));
     Act (analogWritePin P1 (Num 0));
     Act (analogWritePin P2 (Num 0));
     Act stopAllSounds;
     uartWriteLine "RESET_OK";
     serialWriteLine "RESET_OK"].
Proof.
  assert (H : first_token "reset now" = Some "reset") by reflexivity.
  split; [exact H |].
  exact (reset_actions_then_reply Sample.parseInt Sample.board _ Sample.boot H).
Defined.

Lemma blank_line_no_effect_witness :
  Str.all_whitespace "   " = true /\
  Ts.run Sample.parseInt Sample.board "   " (mkState "ping" [Act clearScreen])
  = mkState "ping" [Act clearScreen].
Proof.
  assert (H : Str.all_whitespace "   " = true) by reflexivity.
  split; [exact H |].
  exact (blank_line_no_effect Sample.parseInt Sample.board _ _ H).
Defined.

Lemma print_shows_joined_args_witness :
  tokens "print  a b" = ["print"; EmptyString; "a"; "b"] /\
  trace (Sample.run_ts "print  a b") = [Act (showString "a b")].
Proof.
  assert (H : tokens "print  a b" = ["print"; EmptyString; "a"; "b"])
    by reflexivity.
  split; [exact H |].
  exact (proj1 (print_shows_joined_args Sample.parseInt Sample.board)
               _ Sample.boot _ H).
Defined.

Lemma cmd_written_never_read_witness :
  (Str.trim "  Frobnicate 1 " <> EmptyString /\
   cmd (Sample.run_ts "  Frobnicate 1 ") = "frobnicate") /\
  (Str.trim "  " = EmptyString /\
   cmd (Ts.run Sample.parseInt Sample.board "  " (mkState "ping" [])) = "ping").
Proof.
  assert (H1 : Str.trim "  Frobnicate 1 " <> EmptyString)
    by (vm_compute; discriminate).
  assert (H2 : Str.trim "  " = EmptyString) by reflexivity.
  split; (split; [assumption|]).
  - exact (proj1 (cmd_written_never_read Sample.parseInt Sample.board
                    _ Sample.boot) H1).
  - exact (proj1 (proj2 (cmd_written_never_read Sample.parseInt Sample.board
                           _ (mkState "ping" []))) H2).
Defined.

(** * Further properties *)

(** ** What one line does *)

Lemma uart_lines_app a b : uart_lines (a ++ b) = (uart_lines a ++ uart_lines b)%list.
Proof.
  induction a as [|e a IH]; simpl; [reflexivity|].
  destruct e; simpl; now rewrite IH.
Qed.

Lemma serial_lines_app a b :
  serial_lines (a ++ b) = (serial_lines a ++ serial_lines b)%list.
Proof.
  induction a as [|e a IH]; simpl; [reflexivity|].
  destruct e; simpl; now rewrite IH.
Qed.

Lemma readings_of_app a b :
  readings_of (a ++ b) = (readings_of a ++ readings_of b)%list.
Proof.
  induction a as [|e a IH]; simpl; [reflexivity|].
  destruct e; simpl; now rewrite IH.
Qed.

(** Enters the response of a line whose first token is known. *)
Ltac enter_response H :=
  let Hne := fresh "Hne" in
  let Hc := fresh "Hc" in
  destruct (first_token_some _ _ H) as [Hne Hc];
  unfold response, Ts.run, Ts.process_command, exec;
  rewrite Hne;
  unfold bind, set_cmd, get_cmd;
  cbn [fst snd cmd trace];
  rewrite Hc.

Section Commands.
Variable parseInt : string -> number.
Variable board : Input -> number.

(** Whatever the state, a line appends its response to the trace. *)
Lemma run_appends line st :
  trace (Ts.run parseInt board line st)
  = (trace st ++ response parseInt board line)%list.
Proof.
  unfold response, Ts.run, Ts.process_command, exec.
  destruct (String.length (normalize line) =? 0)%nat.
  - cbn. now rewrite app_nil_r.
  - unfold bind, set_cmd, get_cmd. cbn [fst snd cmd trace].
    split_tests; cbn; rewrite <- ?app_assoc, ?app_nil_r; reflexivity.
Qed.

Lemma run_cmd line st :
  cmd (Ts.run parseInt board line st)
  = match first_token line with Some name => name | None => cmd st end.
Proof.
  unfold first_token, tokens, Ts.run, Ts.process_command, exec.
  destruct (String.length (normalize line) =? 0)%nat; [reflexivity|].
  unfold bind, set_cmd, get_cmd. cbn [fst snd cmd trace].
  split_tests; reflexivity.
Qed.


(** X1: [get_sensor t] reads the sensor that [t] names once and replies
    with the value read, as text, on both transports; for any other [t]
    it reads nothing and stays silent. Tokens after [t] are ignored. *)
Theorem get_sensor_reply msg st t rest :
  tokens msg = "get_sensor" :: t :: rest ->
  trace (Ts.run parseInt board msg st) =
    (trace st ++
     match sensor_of_name t with
     | Some i => Sense i :: replied (number_to_string (board i))
     | None => []
     end)%list.
Proof.
  intros Ht. rewrite run_appends. f_equal.
  assert (H : first_token msg = Some "get_sensor")
    by (apply (tokens_head _ _ _ Ht); discriminate).
  enter_response H. unfold tokens in Ht. rewrite Ht.
  unfold sensor_of_name. cbn.
  destruct (t =? "temp"); [reflexivity|].
  destruct (t =? "light"); [reflexivity|].
  destruct (t =? "accel"); [reflexivity|].
  destruct (t =? "compass"); reflexivity.
Qed.

(** X2: [pin mode label v] makes exactly one write of [parseInt v] to the
    pin that [label] names, digital when [mode] is [d] and analog for
    every other [mode]; when [label] names no pin nothing is written. The
    value is not validated, and there is never a reply. *)
Theorem pin_write msg st mode label v rest :
  tokens msg = "pin" :: mode :: label :: v :: rest ->
  trace (Ts.run parseInt board msg st) =
    (trace st ++
     match pin_of_name label with
     | Some p =>
         [Act (if mode =? "d" then digitalWritePin p (parseInt v)
               else analogWritePin p (parseInt v))]
     | None => []
     end)%list.
Proof.
  intros Ht. rewrite run_appends. f_equal.
  assert (H : first_token msg = Some "pin")
    by (apply (tokens_head _ _ _ Ht); discriminate).
  enter_response H. unfold tokens in Ht. rewrite Ht.
  unfold pin_of_name. cbn.
  destruct (mode =? "d");
    (destruct (label =? "p0"); [reflexivity|];
     destruct (label =? "p1"); [reflexivity|];
     destruct (label =? "p2"); reflexivity).
Qed.

(** X3: [tone f d] plays one sawtooth sound with frequency [parseInt f]
    and duration [parseInt d], and nothing else: no reply. *)
Theorem tone_plays msg st f d rest :
  tokens msg = "tone" :: f :: d :: rest ->
  trace (Ts.run parseInt board msg st) =
    (trace st ++ [Act (music_play (parseInt f) (parseInt d))])%list.
Proof.
  intros Ht. rewrite run_appends. f_equal.
  assert (H : first_token msg = Some "tone")
    by (apply (tokens_head _ _ _ Ht); discriminate).
  enter_response H. unfold tokens in Ht. rewrite Ht. reflexivity.
Qed.

(** X4: [plot x y], [unplot x y] and [toggle x y] make the one LED call
    of their name at [(parseInt x, parseInt y)], with no bounds check and
    no reply. *)
Theorem led_pixel_call msg st name call x y rest :
  tokens msg = name :: x :: y :: rest ->
  led_call name = Some call ->
  trace (Ts.run parseInt board msg st) =
    (trace st ++ [Act (call (parseInt x) (parseInt y))])%list.
Proof.
  intros Ht Hcall. rewrite run_appends. f_equal.
  unfold led_call in Hcall.
  destruct (String.eqb_spec name "plot") as [->|_];
    [|destruct (String.eqb_spec name "unplot") as [->|_];
      [|destruct (String.eqb_spec name "toggle") as [->|_];
        [|discriminate]]];
    injection Hcall as <-;
    (match type of Ht with
     | tokens _ = ?n :: _ =>
         assert (H : first_token msg = Some n)
           by (apply (tokens_head _ _ _ Ht); discriminate)
     end);
    enter_response H; unfold tokens in Ht; rewrite Ht; reflexivity.
Qed.

(** X5: [clear] clears the display and does nothing else, whatever
    tokens follow. *)
Theorem clear_clears msg st :
  first_token msg = Some "clear" ->
  trace (Ts.run parseInt board msg st) = (trace st ++ [Act clearScreen])%list.
Proof.
  intros H. rewrite run_appends. f_equal.
  enter_response H. reflexivity.
Qed.

(** X6: whatever the line, each reply goes to both transports: the lines
    written to the Bluetooth UART are those written to the serial link;
    and one line gets at most one reply and causes at most one reading. *)
Theorem replies_mirrored msg st :
  exists evs,
    trace (Ts.run parseInt board msg st) = (trace st ++ evs)%list /\
    uart_lines evs = serial_lines evs /\
    length (uart_lines evs) <= 1 /\
    length (readings_of evs) <= 1.
Proof.
  exists (response parseInt board msg). split; [apply run_appends|].
  unfold response, Ts.run, Ts.process_command, exec.
  destruct (String.length (normalize msg) =? 0)%nat.
  - cbn. auto.
  - unfold bind, set_cmd, get_cmd. cbn [fst snd cmd trace].
    split_tests; cbn; auto.
Qed.

(** X7: [pin], [tone], [print], [plot], [unplot], [toggle] and [clear]
    are never acknowledged: whatever their arguments, nothing is written
    to either transport, and no sensor or pin is read. *)
Theorem unanswered_commands msg st name :
  first_token msg = Some name ->
  In name unanswered ->
  uart_lines (trace (Ts.run parseInt board msg st)) = uart_lines (trace st) /\
  serial_lines (trace (Ts.run parseInt board msg st)) = serial_lines (trace st) /\
  readings_of (trace (Ts.run parseInt board msg st)) = readings_of (trace st).
Proof.
  intros H Hin. rewrite run_appends.
  rewrite uart_lines_app, serial_lines_app, readings_of_app.
  assert (E : uart_lines (response parseInt board msg) = [] /\
              serial_lines (response parseInt board msg) = [] /\
              readings_of (response parseInt board msg) = []).
  { enter_response H. simpl in Hin.
    repeat (destruct Hin as [<-|Hin];
            [cbn; split_tests; cbn; auto|]).
    contradiction. }
  destruct E as (-> & -> & ->). now rewrite !app_nil_r.
Qed.

End Commands.

(** ** Tokens and the text shown by print *)

Module SplitFacts.
Import Str.

Lemma concat_cons sep a l :
  l <> [] -> String.concat sep (a :: l) = a ++ sep ++ String.concat sep l.
Proof. destruct l; [congruence | reflexivity]. Qed.

(** Joining the pieces with the separator gives the string back. *)
Lemma join_split c s : String.concat (String c "") (split c s) = s.
Proof.
  induction s as [|a r IH]; [reflexivity|].
  simpl split. destruct (Ascii.eqb_spec a c) as [->|Hne].
  - rewrite concat_cons by apply StrFacts.split_not_nil.
    simpl. now rewrite IH.
  - destruct (split c r) as [|tok toks] eqn:E.
    + now destruct (StrFacts.split_not_nil c r).
    + destruct toks as [|t2 toks].
      * simpl in *. now rewrite IH.
      * rewrite concat_cons by discriminate.
        rewrite concat_cons in IH by discriminate.
        simpl. now rewrite <- IH.
Qed.

Lemma split_no_sep s : Forall (fun t => no_space t = true) (split " " s).
Proof.
  induction s as [|a r IH]; simpl.
  - constructor; [reflexivity | constructor].
  - destruct (Ascii.eqb a " ") eqn:E.
    + constructor; [reflexivity | exact IH].
    + destruct (split " " r) as [|tok toks].
      * constructor; [simpl; now rewrite E | constructor].
      * inversion IH; subst. constructor; [simpl; now rewrite E | assumption].
Qed.

(** The first piece of a string that starts with no white space is not
    empty. *)
Lemma split_head_nonempty s :
  s <> "" -> clean_start s = true -> nth 0 (split " " s) "" <> "".
Proof.
  destruct s as [|a r]; [congruence|]. intros _ H. simpl in H.
  simpl split. destruct (Ascii.eqb_spec a " ") as [->|_]; [discriminate|].
  destruct (split " " r); simpl; discriminate.
Qed.

Lemma clean_start_toLowerCase s : clean_start (toLowerCase s) = clean_start s.
Proof. destruct s; simpl; [reflexivity|]. now rewrite StrFacts.lower_char_whitespace. Qed.

Lemma trim_end_space s : trim_end (s ++ " ") = trim_end s.
Proof.
  induction s as [|c r IH]; [reflexivity|].
  simpl. now rewrite IH.
Qed.

Lemma trim_start_end_comm s : trim_end (trim_start s) = trim_start (trim_end s).
Proof.
  induction s as [|c r IH]; [reflexivity|].
  simpl. destruct (is_whitespace c) eqn:E; simpl.
  - rewrite IH. destruct (trim_end r); simpl; [reflexivity|].
    now rewrite E.
  - now rewrite E.
Qed.

Lemma spaced_concat args :
  args <> [] -> spaced args = String.concat " " args ++ " ".
Proof.
  induction args as [|a l IH]; [congruence|]. intros _.
  destruct l as [|b l].
  - reflexivity.
  - rewrite concat_cons by discriminate.
    change (spaced (a :: b :: l)) with (a ++ " " ++ spaced (b :: l)).
    rewrite IH by discriminate.
    now rewrite !append_assoc_string.
Qed.

End SplitFacts.

Lemma clean_start_normalize msg : Str.clean_start (normalize msg) = true.
Proof.
  unfold normalize. rewrite SplitFacts.clean_start_toLowerCase.
  apply StrFacts.trim_end_clean, StrFacts.trim_start_clean.
Qed.

(** X8: splitting loses nothing: the tokens of a line joined by single
    spaces are the normalized line, and no token holds a space. *)
Theorem tokens_join msg :
  String.concat " " (tokens msg) = normalize msg /\
  Forall (fun t => no_space t = true) (tokens msg).
Proof.
  split; [apply SplitFacts.join_split | apply SplitFacts.split_no_sep].
Qed.

(** X9: the command name of a line that is not blank is never the empty
    token: white space before the command is trimmed, not split. *)
Theorem command_name_not_empty msg name :
  first_token msg = Some name -> name <> "".
Proof.
  intros H. destruct (first_token_some _ _ H) as [Hne <-].
  apply SplitFacts.split_head_nonempty.
  - intros E. rewrite E in Hne. discriminate.
  - apply clean_start_normalize.
Qed.

Section Printing.
Variable parseInt : string -> number.
Variable board : Input -> number.

Lemma response_print msg :
  first_token msg = Some "print" ->
  response parseInt board msg
  = [Act (showString (Str.trim (print_loop (tokens msg))))].
Proof. intros H. enter_response H. reflexivity. Qed.

Lemma print_loop_rest msg :
  first_token msg = Some "print" ->
  Str.trim (print_loop (tokens msg)) = Str.trim (skip 5 (normalize msg)).
Proof.
  intros H. destruct (first_token_some _ _ H) as [_ Hc].
  pose proof (SplitFacts.join_split " "%char (normalize msg)) as J.
  unfold tokens.
  destruct (Str.split " " (normalize msg)) as [|name args] eqn:E;
    [now destruct (StrFacts.split_not_nil " "%char (normalize msg))|].
  unfold part in Hc. simpl in Hc. subst name.
  rewrite print_loop_spaced, <- J.
  destruct args as [|a l]; [reflexivity|].
  rewrite SplitFacts.concat_cons by discriminate.
  rewrite SplitFacts.spaced_concat by discriminate.
  change (skip 5 ("print" ++ " " ++ String.concat " " (a :: l)))
    with (String " " (String.concat " " (a :: l))).
  unfold Str.trim.
  change (Str.trim_start (String " " (String.concat " " (a :: l))))
    with (Str.trim_start (String.concat " " (a :: l))).
  rewrite !SplitFacts.trim_start_end_comm, SplitFacts.trim_end_space.
  reflexivity.
Qed.

(** X10: [print] shows the rest of the normalized line after the command
    name, trimmed: the text is lower-cased, and spaces inside it are kept
    as they were received, not collapsed. *)
Theorem print_shows_rest_of_line msg st :
  first_token msg = Some "print" ->
  trace (Ts.run parseInt board msg st) =
    (trace st ++ [Act (showString (Str.trim (skip 5 (normalize msg))))])%list.
Proof.
  intros H. rewrite run_appends, (response_print _ H), (print_loop_rest _ H).
  reflexivity.
Qed.

End Printing.

(** ** Whole runs *)

Lemma exec_seq (m k : M unit) st :
  exec (m ;; k) st = exec k (exec m st).
Proof. unfold exec, bind. destruct (m st). reflexivity. Qed.

Section Sessions.
Variable parseInt : string -> number.

Lemma exec_deliver r st :
  exec (deliver parseInt r) st = Ts.run parseInt (readings r) (text r) st.
Proof. unfold deliver. destruct (via r); reflexivity. Qed.

Lemma deliver_all_trace rs st :
  trace (exec (deliver_all parseInt rs) st)
  = (trace st ++ flat_map (fun r => response parseInt (readings r) (text r)) rs)%list.
Proof.
  revert st. induction rs as [|r rs IH]; intros st.
  - cbn. now rewrite app_nil_r.
  - cbn [deliver_all flat_map]. rewrite exec_seq, IH, exec_deliver, run_appends.
    now rewrite app_assoc.
Qed.

Lemma deliver_all_cmd rs st :
  cmd (exec (deliver_all parseInt rs) st) = last_command (cmd st) (map text rs).
Proof.
  revert st. induction rs as [|r rs IH]; intros st; [reflexivity|].
  cbn [deliver_all map last_command].
  now rewrite exec_seq, IH, exec_deliver, run_cmd.
Qed.

Lemma response_mirrored board line :
  uart_lines (response parseInt board line)
  = serial_lines (response parseInt board line) /\
  length (uart_lines (response parseInt board line)) <= 1.
Proof.
  unfold response, Ts.run, Ts.process_command, exec.
  destruct (String.length (normalize line) =? 0)%nat.
  - cbn. auto.
  - unfold bind, set_cmd, get_cmd. cbn [fst snd cmd trace].
    split_tests; cbn; auto.
Qed.

(** X11: a whole run does the two start-up calls and then, for each line
    received, exactly what that line does on its own: lines do not
    influence one another. *)
Theorem session_trace rs st :
  trace (exec (session parseInt rs) st)
  = (trace st
     ++ [Act startUartService; Act showIcon_SmallDiamond]
     ++ flat_map (fun r => response parseInt (readings r) (text r)) rs)%list.
Proof.
  unfold session. rewrite exec_seq, deliver_all_trace.
  cbn. rewrite <- !app_assoc. reflexivity.
Qed.


Lemma responses_mirrored rs :
  let evs := flat_map (fun r => response parseInt (readings r) (text r)) rs in
  uart_lines evs = serial_lines evs /\ length (uart_lines evs) <= length rs.
Proof.
  cbv zeta. induction rs as [|r rs [IH1 IH2]]; [cbn; auto|].
  cbn [flat_map]. rewrite uart_lines_app, serial_lines_app.
  destruct (response_mirrored (readings r) (text r)) as [E L].
  split; [now rewrite E, IH1|].
  rewrite length_app. cbn [length]. lia.
Qed.

(** X13: over a whole run the two transports carry the same replies in
    the same order, and there are never more replies than lines
    received: nothing is sent unsolicited. *)
Theorem session_replies_mirrored rs c :
  let t := trace (exec (session parseInt rs) (mkState c [])) in
  uart_lines t = serial_lines t /\ length (uart_lines t) <= length rs.
Proof.
  cbv zeta. unfold session. rewrite exec_seq, deliver_all_trace.
  rewrite uart_lines_app, serial_lines_app.
  destruct (responses_mirrored rs) as [E L]. cbv zeta in E, L.
  split; [now rewrite E|].
  rewrite length_app. cbn. exact L.
Qed.

(** X14: after a run, [cmd] holds the command name of the last line
    received that was not blank, and the empty string when there was
    none: the top level clears whatever it held before. *)
Theorem session_cmd rs st :
  cmd (exec (session parseInt rs) st) = last_command "" (map text rs).
Proof.
  unfold session. rewrite exec_seq, deliver_all_cmd. reflexivity.
Qed.

End Sessions.

(** ** The Python encoding *)

Section Python.
Variable parseInt : string -> number.
Variable board : Input -> number.

(** X15: the Python encoding leaves the same state as the TypeScript one
    on every line, except that it has no [version] command: there it
    only records the name in [cmd] and sends nothing. *)
Theorem python_encoding msg st :
  Py.run parseInt board msg st =
    match first_token msg with
    | Some name =>
        if name =? "version" then mkState "version" (trace st)
        else Ts.run parseInt board msg st
    | None => Ts.run parseInt board msg st
    end.
Proof.
  destruct (first_token msg) as [name|] eqn:H.
  - destruct (String.eqb_spec name "version") as [->|Hn].
    + destruct (first_token_some _ _ H) as [Hne Hc].
      unfold Py.run, Py.process_command, exec. rewrite Hne.
      unfold bind, set_cmd, get_cmd. cbn [fst snd cmd trace].
      rewrite Hc. reflexivity.
    + apply encodings_agree_off_version. rewrite H. congruence.
  - apply encodings_agree_off_version. rewrite H. discriminate.
Qed.

End Python.

(** ** Concrete runs of the further properties *)

Lemma get_sensor_reply_witness :
  tokens "get_sensor temp" = ["get_sensor"; "temp"] /\
  trace (Sample.run_ts "get_sensor temp") = Sense temperature :: replied "21".
Proof.
  assert (H : tokens "get_sensor temp" = ["get_sensor"; "temp"]) by reflexivity.
  split; [exact H |].
  exact (get_sensor_reply Sample.parseInt Sample.board _ Sample.boot _ _ H).
Defined.

Lemma pin_write_witness :
  tokens "pin d p0 1" = ["pin"; "d"; "p0"; "1"] /\
  trace (Sample.run_ts "pin d p0 1") = [Act (digitalWritePin P0 (Num 1))].
Proof.
  assert (H : tokens "pin d p0 1" = ["pin"; "d"; "p0"; "1"]) by reflexivity.
  split; [exact H |].
  exact (pin_write Sample.parseInt Sample.board _ Sample.boot _ _ _ _ H).
Defined.

Lemma tone_plays_witness :
  tokens "tone 440 200" = ["tone"; "440"; "200"] /\
  trace (Sample.run_ts "tone 440 200") = [Act (music_play (Num 440) (Num 200))].
Proof.
  assert (H : tokens "tone 440 200" = ["tone"; "440"; "200"]) by reflexivity.
  split; [exact H |].
  exact (tone_plays Sample.parseInt Sample.board _ Sample.boot _ _ _ H).
Defined.

Lemma led_pixel_call_witness :
  tokens "toggle 2 3" = ["toggle"; "2"; "3"] /\
  led_call "toggle" = Some toggle /\
  trace (Sample.run_ts "toggle 2 3") = [Act (toggle (Num 2) (Num 3))].
Proof.
  assert (H1 : tokens "toggle 2 3" = ["toggle"; "2"; "3"]) by reflexivity.
  assert (H2 : led_call "toggle" = Some toggle) by reflexivity.
  split; [exact H1 | split; [exact H2 |]].
  exact (led_pixel_call Sample.parseInt Sample.board _ Sample.boot
           _ _ _ _ _ H1 H2).
Defined.

Lemma clear_clears_witness :
  first_token "clear now" = Some "clear" /\
  trace (Sample.run_ts "clear now") = [Act clearScreen].
Proof.
  assert (H : first_token "clear now" = Some "clear") by reflexivity.
  split; [exact H |].
  exact (clear_clears Sample.parseInt Sample.board _ Sample.boot H).
Defined.

Lemma unanswered_commands_witness :
  first_token "plot 1 2" = Some "plot" /\
  In "plot" unanswered /\
  uart_lines (trace (Sample.run_ts "plot 1 2")) = [] /\
  serial_lines (trace (Sample.run_ts "plot 1 2")) = [] /\
  readings_of (trace (Sample.run_ts "plot 1 2")) = [].
Proof.
  assert (H1 : first_token "plot 1 2" = Some "plot") by reflexivity.
  assert (H2 : In "plot" unanswered) by (simpl; auto 10).
  split; [exact H1 | split; [exact H2 |]].
  exact (unanswered_commands Sample.parseInt Sample.board _ Sample.boot _ H1 H2).
Defined.

Lemma command_name_not_empty_witness :
  first_token "   ping" = Some "ping" /\ "ping" <> EmptyString.
Proof.
  assert (H : first_token "   ping" = Some "ping") by reflexivity.
  split; [exact H |].
  exact (command_name_not_empty _ _ H).
Defined.

Lemma print_shows_rest_of_line_witness :
  first_token "print  Hello   World " = Some "print" /\
  trace (Sample.run_ts "print  Hello   World ")
  = [Act (showString "hello   world")].
Proof.
  assert (H : first_token "print  Hello   World " = Some "print")
    by reflexivity.
  split; [exact H |].
  exact (print_shows_rest_of_line Sample.parseInt Sample.board _ Sample.boot H).
Defined.
